(** * Low temperature shift reactor model (mainLTSMk3.py)

    A shallow embedding of the script that integrates the water-gas shift
    kinetics over catalyst mass, and the properties of it that its
    specification states.

    Numbers.  The script computes on Python and NumPy floats.  The float
    operations are embedded as the operations of exact real arithmetic
    they round: [+], [-], [*] are total; [/] and [**] are partial and
    return in the [result] monad, an operation outside its domain (a zero
    divisor, a power with no real value) being a raised error.  Rounding,
    overflow and the IEEE special values are therefore outside this model;
    where a NumPy float would carry [inf] or [nan] the model has [Raise].
    What the script computes with [+], [-], [*] and [/] alone is also
    replayed bit for bit on binary64 numbers: the inlet total in
    [Binary64], the concentrations and beta in [LTS64].  A statement that
    rests on exact cancellation is checked there before it is made. *)

From Stdlib Require Import Reals Lra Lia List String ZArith Floats.
Import ListNotations.

Open Scope R_scope.

(** ** Errors and partial results *)

Inductive exn : Type :=
| ZeroDivisionError   (* a zero divisor, or zero raised to a negative power *)
| NotReal             (* a negative base raised to a non-integer power: no
                         exception of Python's, the value is no real number
                         (a complex number from float [**], nan from NumPy) *)
| ValueError.         (* a sequence unpacked into the wrong number of names *)

Inductive result (A : Type) : Type :=
| Ok (v : A)
| Raise (e : exn).

Arguments Ok {A} v.
Arguments Raise {A} e.

Definition bind {A B : Type} (m : result A) (f : A -> result B) : result B :=
  match m with
  | Ok v => f v
  | Raise e => Raise e
  end.

Notation "x <- m ;; f" := (bind m (fun x => f))
  (at level 61, m at next level, right associativity).

Definition defined {A : Type} (m : result A) : Prop :=
  exists v, m = Ok v.

(** The computation raises nothing and its value is no real number: it is
    complex where Python's float [**] is used, nan where NumPy's is. *)
Definition not_real {A : Type} (m : result A) : Prop :=
  m = Raise NotReal.

(** ** Float operations, on the reals *)

(** [x / y] *)
Definition float_div (x y : R) : result R :=
  if Req_dec_T y 0 then Raise ZeroDivisionError else Ok (x / y).

(** [x ** y]: a positive base has every power; anything to the power zero
    is one; zero has its positive powers only; a negative base has its
    integer powers only. *)
Definition float_pow (x y : R) : result R :=
  if Rlt_dec 0 x then Ok (Rpower x y)
  else if Req_dec_T y 0 then Ok 1
  else if Req_dec_T x 0 then
         (if Rlt_dec 0 y then Ok 0 else Raise ZeroDivisionError)
  else if Req_dec_T y (IZR (Int_part y)) then Ok (powerRZ x (Int_part y))
  else Raise NotReal.

(** ** NumPy *)

Module np.

(** [np.exp] *)
Definition exp (x : R) : R := Rtrigo_def.exp x.

(** Modelled from the spec: [np.linspace] is NumPy's and not part of the
    script.  It gives an evenly spaced grid of [num] points from [start]
    to [stop] inclusive, computed the way NumPy does: the samples
    [i * step + start] for [step = (stop - start) / (num - 1)], the last
    of them then overwritten with [stop]. *)
Definition linspace (start stop : R) (num : nat) : list R :=
  let div := (num - 1)%nat in
  let delta := stop - start in
  let step := delta / INR div in
  let y := map (fun i => INR i * step + start) (seq 0 num) in
  if (1 <? num)%nat then removelast y ++ [stop] else y.

End np.

(** ** SciPy *)

Module scipy_integrate.

Section Odeint.

(** The integrator proper: from the right-hand side, the state at [t0]
    and the two ends of a step of the output grid, the state at [t1]. *)
Variable lsoda :
  (list R -> R -> result (R * R * R * R)) -> list R -> R -> R -> list R.

Fixpoint advance (func : list R -> R -> result (R * R * R * R))
    (y : list R) (t0 : R) (ts : list R) : list (list R) :=
  match ts with
  | [] => []
  | t1 :: ts' =>
      let y1 := lsoda func y t0 t1 in
      y1 :: advance func y1 t1 ts'
  end.

(** Modelled from the spec: [odeint] is SciPy's and not part of the
    script.  It returns one state per sample point, the initial state at
    the first of them, each later one reached from the one before by the
    integrator proper, which is left open. *)
Definition odeint (func : list R -> R -> result (R * R * R * R))
    (y0 : list R) (t : list R) : list (list R) :=
  match t with
  | [] => []
  | t0 :: ts => y0 :: advance func y0 t0 ts
  end.

End Odeint.

End scipy_integrate.

(** [rows[:, i]] *)
Definition column (i : nat) (rows : list (list R)) : list R :=
  map (fun row => nth i row 0) rows.

(** ** Matplotlib's pyplot *)

Module plt.

Record Line : Type := mkLine {
  xdata : list R;
  ydata : list R;
  label : string
}.

Record Legend : Type := mkLegend {
  loc : string;
  entries : list string
}.

Record Figure : Type := mkFigure {
  lines : list Line;
  xlabel_text : string;
  ylabel_text : string;
  title_text : string;
  legend_box : option Legend
}.

Definition empty_figure : Figure := mkFigure [] "" "" "" None.

(** Modelled from the spec: pyplot is Matplotlib's and not part of the
    script.  A chart is a figure of labelled line series with axis labels,
    a title and a legend, and it is displayed or saved.  The state behind
    the pyplot interface holds the figures, the current one first, what is
    on the screen, and what has been written to files. *)
Record State : Type := mkState {
  interactive : bool;
  figures : list Figure;
  on_screen : list Figure;
  files : list (string * Figure)
}.

Definition start (interactive_mode : bool) : State :=
  mkState interactive_mode [] [] [].

(** The current figure, made if there is none. *)
Definition gcf (st : State) : Figure * list Figure :=
  match figures st with
  | [] => (empty_figure, [])
  | fig :: others => (fig, others)
  end.

(** Every drawing call edits the current figure, and redraws the screen
    in interactive mode only; otherwise a figure reaches the screen by
    [show] and a file by [savefig]. *)
Definition draw (edit : Figure -> Figure) (st : State) : State :=
  let (fig, others) := gcf st in
  let figs := edit fig :: others in
  mkState (interactive st) figs
          (if interactive st then figs else on_screen st)
          (files st).

Definition plot (x y : list R) (lbl : string) : State -> State :=
  draw (fun fig =>
    mkFigure (lines fig ++ [mkLine x y lbl]) (xlabel_text fig)
             (ylabel_text fig) (title_text fig) (legend_box fig)).

Definition xlabel (s : string) : State -> State :=
  draw (fun fig =>
    mkFigure (lines fig) s (ylabel_text fig) (title_text fig)
             (legend_box fig)).

Definition ylabel (s : string) : State -> State :=
  draw (fun fig =>
    mkFigure (lines fig) (xlabel_text fig) s (title_text fig)
             (legend_box fig)).

Definition title (s : string) : State -> State :=
  draw (fun fig =>
    mkFigure (lines fig) (xlabel_text fig) (ylabel_text fig) s
             (legend_box fig)).

Definition legend (place : string) : State -> State :=
  draw (fun fig =>
    mkFigure (lines fig) (xlabel_text fig) (ylabel_text fig)
             (title_text fig)
             (Some (mkLegend place (map label (lines fig))))).

Definition show (st : State) : State :=
  mkState (interactive st) (figures st) (figures st) (files st).

Definition savefig (name : string) (st : State) : State :=
  let (fig, others) := gcf st in
  mkState (interactive st) (fig :: others) (on_screen st)
          ((name, fig) :: files st).

(** A chart has been displayed or saved. *)
Definition displayed_or_saved (st : State) : Prop :=
  on_screen st <> [] \/ files st <> [].

End plt.

Module mainLTSMk3.

(** ** Inlet flow rates *)

Definition f0CO : R := 291.4.
Definition f0H2O : R := 5441.7.
Definition f0CO2 : R := 1604.2.
Definition f0H2 : R := 5015.6.

Definition InletFlow : list R := [f0CO; f0H2O; f0CO2; f0H2].

(** [sum(iterable)]: left to right, from 0. *)
Definition sum (l : list R) : R := fold_left Rplus l 0.

Definition fTotal : R := sum InletFlow.

(** ** Parameters, universal constants and reactor configuration *)

Definition T : R := 497.15.
Definition P : Z := 2050000.
(** The gas constant, [R] in the script. *)
Definition Rgas : R := 8.314.

Definition wMax : Z := 3000.
Definition wMin : Z := 0.

(** ** Kinetic parameters *)

Definition a : R := 0.47.
Definition b : R := 0.72.
Definition c : R := -0.65.
Definition d : R := -0.38.

Definition lonA : R := 19.25.
Definition A : R := np.exp lonA.
Definition newA : R :=
  A * 1000 / 3600 * Rpower 101325 (-0.16) * Rpower (IZR P) 0.16.
Definition Ea : R := 79.2e3.
Definition k : R := newA * np.exp (- Ea / (Rgas * T)).
Definition Ke : R := np.exp (4577.8 / T - 4.33).

(** The same four assignments with the partial operations, in the order
    the interpreter evaluates them. *)
Definition derived_constants : result (R * R * R * R) :=
  let A' := np.exp lonA in
  q <- float_div (A' * 1000) 3600 ;;
  p1 <- float_pow 101325 (-0.16) ;;
  p2 <- float_pow (IZR P) 0.16 ;;
  let newA' := q * p1 * p2 in
  e <- float_div (- Ea) (Rgas * T) ;;
  let k' := newA' * np.exp e in
  t <- float_div 4577.8 T ;;
  let Ke' := np.exp (t - 4.33) in
  Ok (A', newA', k', Ke').

(** ** The system of ODEs *)

Definition LTS (z : list R) (W : R) : result (R * R * R * R) :=
  cTotal <- float_div (IZR P) (Rgas * T) ;;
  match z with
  | [FCO2O; FH2O; FCO2; FH2] =>
      let Ft := FCO2O + FH2O + FCO2 + FH2 in
      c_CO <- float_div (cTotal * FCO2O) Ft ;;
      c_H2O <- float_div (cTotal * FH2O) Ft ;;
      c_CO2 <- float_div (cTotal * FCO2) Ft ;;
      c_H2 <- float_div (cTotal * FH2) Ft ;;
      q <- float_div (c_H2 * c_CO2) (c_CO * c_H2O) ;;
      beta <- float_div q Ke ;;
      pa <- float_pow c_CO a ;;
      pb <- float_pow c_H2O b ;;
      pd <- float_pow c_CO2 d ;;
      pc <- float_pow c_H2 c ;;
      let rate := k * pa * pb * pd * pc * (1 - beta) in
      let rateCO := - rate in
      let rateH2O := - rate in
      let rateCO2 := rate in
      let rateH2 := rate in
      let dCOdW := rateCO in
      let dH2OdW := rateH2O in
      let dCO2dW := rateCO2 in
      let dH2dW := rateH2 in
      Ok (dCOdW, dH2OdW, dCO2dW, dH2dW)
  | _ => Raise ValueError
  end.

(** ** Solving the system, and the plot *)

Definition wSpan : list R :=
  np.linspace (IZR wMin) (IZR wMax) (Z.to_nat wMax).

Section Run.

Variable lsoda :
  (list R -> R -> result (R * R * R * R)) -> list R -> R -> R -> list R.

Definition solver : list (list R) :=
  scipy_integrate.odeint lsoda LTS InletFlow wSpan.

Definition plot_results (st : plt.State) : plt.State :=
  let st := plt.plot wSpan (column 0 solver) "F_CO" st in
  let st := plt.plot wSpan (column 1 solver) "F_H2O" st in
  let st := plt.plot wSpan (column 2 solver) "F_CO2" st in
  let st := plt.plot wSpan (column 3 solver) "F_H2" st in
  let st := plt.xlabel "Catalyst mass, kg" st in
  let st := plt.ylabel "Molar Flowrates (mol/s)" st in
  let st := plt.title "LTS Molar Flow as Function of Cat. Mass" st in
  plt.legend "best" st.

(** The whole script, from a fresh pyplot state. *)
Definition main (interactive_mode : bool) : plt.State :=
  plot_results (plt.start interactive_mode).

End Run.

End mainLTSMk3.

(** ** The inlet total on binary64 numbers

    The sum of the inlet flows uses no operation but [+], which Rocq's
    primitive floats share with Python's: the same left-to-right sum,
    from 0, on the binary64 numbers the four literals denote. *)

Module Binary64.

#[local] Set Warnings "-inexact-float".

Definition InletFlow : list float :=
  [291.4%float; 5441.7%float; 1604.2%float; 5015.6%float].

Definition sum (l : list float) : float :=
  fold_left PrimFloat.add l 0%float.

Definition fTotal : float := sum InletFlow.

Definition stated_total : float := 12353.9%float.
Definition exact_total : float := 12352.9%float.

End Binary64.

(** ** The kinetics function on binary64 numbers

    Up to [1 - beta] the lines of [LTS] use [+], [-], [*] and [/] only, and
    are replayed here bit for bit.  [**] and [np.exp] are not among the
    operations of primitive floats: the power function, [k] and [Ke] are
    parameters of the replay.  A division by zero gives an infinity or nan
    here, as on NumPy's float64; Python's own float raises there. *)

Module LTS64.

#[local] Set Warnings "-inexact-float".
#[local] Open Scope float_scope.

Definition T : float := 497.15.
(** The integer 2050000, which the division converts exactly. *)
Definition P : float := 2050000.
Definition Rgas : float := 8.314.

Definition a : float := 0.47.
Definition b : float := 0.72.
Definition c : float := -0.65.
Definition d : float := -0.38.

Definition cTotal : float := P / (Rgas * T).

Definition conc (F_i Ft : float) : float := cTotal * F_i / Ft.

Definition beta (Ke c_CO c_H2O c_CO2 c_H2 : float) : float :=
  c_H2 * c_CO2 / (c_CO * c_H2O) / Ke.

Section Kinetics.

Variable pow : float -> float -> float.
Variables k Ke : float.

Definition rate (c_CO c_H2O c_CO2 c_H2 : float) : float :=
  k * pow c_CO a * pow c_H2O b * pow c_CO2 d * pow c_H2 c
  * (1 - beta Ke c_CO c_H2O c_CO2 c_H2).

Definition LTS (z : list float) : option (float * float * float * float) :=
  match z with
  | [FCO2O; FH2O; FCO2; FH2] =>
      let Ft := FCO2O + FH2O + FCO2 + FH2 in
      let c_CO := conc FCO2O Ft in
      let c_H2O := conc FH2O Ft in
      let c_CO2 := conc FCO2 Ft in
      let c_H2 := conc FH2 Ft in
      let rate := rate c_CO c_H2O c_CO2 c_H2 in
      Some (- rate, - rate, rate, rate)
  | _ => None
  end.

End Kinetics.


(** [lam * z] *)
Definition scale (lam : float) (z : list float) : list float :=
  map (fun F_i => lam * F_i) z.

(** The binary64 number the script has for [Ke]: the one nearest to
    exp(4577.8/497.15 - 4.33) = 131.378975667341... *)
Definition Ke_value : float := 131.37897566734108.

End LTS64.

(** ** The specification's words

    Second definitions, written from the specification's sentences and
    with its literal numbers, to be compared with the script's. *)

(** Section 4.1, parameter derivation. *)
Module ParameterDerivation.

Definition lnA : R := 19.25.
Definition A : R := exp lnA.
Definition newA : R :=
  A * 1000 / 3600 * Rpower 101325 (-0.16) * Rpower 2050000 0.16.
Definition k : R := newA * exp (- 79.2e3 / (8.314 * 497.15)).
Definition Ke : R := exp (4577.8 / 497.15 - 4.33).

End ParameterDerivation.

(** Section 4.2, the kinetics function, step by step. *)
Module Kinetics.

Import mainLTSMk3.

(** Step 1: [cTotal = P/(R*T)]. *)
Definition cTotal : R := IZR P / (Rgas * T).

(** Step 2: [Ft], the sum of the four flows. *)
Definition Ft (F_CO F_H2O F_CO2 F_H2 : R) : R :=
  F_CO + F_H2O + F_CO2 + F_H2.

(** Step 3: [c_i = cTotal * F_i / Ft]. *)
Definition conc (F_i Ft : R) : R := cTotal * F_i / Ft.

(** Step 4: [beta = (c_H2 * c_CO2) / (c_CO * c_H2O) / Ke]. *)
Definition beta (c_CO c_H2O c_CO2 c_H2 : R) : result R :=
  q <- float_div (c_H2 * c_CO2) (c_CO * c_H2O) ;;
  float_div q Ke.

(** Step 5: [rate = k * c_CO^a * c_H2O^b * c_CO2^d * c_H2^c * (1 - beta)],
    with CO2 to the power -0.38 and H2 to the power -0.65. *)
Definition rate (c_CO c_H2O c_CO2 c_H2 beta : R) : result R :=
  p_CO <- float_pow c_CO 0.47 ;;
  p_H2O <- float_pow c_H2O 0.72 ;;
  p_CO2 <- float_pow c_CO2 (-0.38) ;;
  p_H2 <- float_pow c_H2 (-0.65) ;;
  Ok (k * p_CO * p_H2O * p_CO2 * p_H2 * (1 - beta)).

(** Steps 1 to 5 on a state. *)
Definition net_rate (F_CO F_H2O F_CO2 F_H2 : R) : result R :=
  let Ft := Ft F_CO F_H2O F_CO2 F_H2 in
  let c_CO := conc F_CO Ft in
  let c_H2O := conc F_H2O Ft in
  let c_CO2 := conc F_CO2 Ft in
  let c_H2 := conc F_H2 Ft in
  beta <- beta c_CO c_H2O c_CO2 c_H2 ;;
  rate c_CO c_H2O c_CO2 c_H2 beta.

(** Step 6: the four derivatives. *)
Definition derivatives (F_CO F_H2O F_CO2 F_H2 : R)
  : result (R * R * R * R) :=
  rate <- net_rate F_CO F_H2O F_CO2 F_H2 ;;
  Ok (- rate, - rate, rate, rate).

(** The rate where every operation is in its domain: the same formula in
    total real arithmetic. *)
Definition rate_formula (c_CO c_H2O c_CO2 c_H2 : R) : R :=
  k * Rpower c_CO a * Rpower c_H2O b * Rpower c_CO2 d * Rpower c_H2 c
  * (1 - c_H2 * c_CO2 / (c_CO * c_H2O) / Ke).

(** Some power of step 5 has no value. *)
Definition some_power_undefined (c_CO c_H2O c_CO2 c_H2 : R) : Prop :=
  ~ defined (float_pow c_CO a) \/ ~ defined (float_pow c_H2O b) \/
  ~ defined (float_pow c_CO2 d) \/ ~ defined (float_pow c_H2 c).

End Kinetics.

Import mainLTSMk3.

Set Warnings "-inexact-float".

(** * Properties *)

(** ** The partial operations *)

Lemma bind_assoc {A B C : Type} (m : result A) (f : A -> result B)
    (g : B -> result C) :
  bind (bind m f) g = bind m (fun x => bind (f x) g).
Proof. destruct m; reflexivity. Qed.

Lemma float_div_ok (x y : R) : y <> 0 -> float_div x y = Ok (x / y).
Proof.
  intros Hy. unfold float_div.
  destruct (Req_dec_T y 0) as [E | _]; [contradiction | reflexivity].
Qed.

Lemma float_div_zero (x : R) : float_div x 0 = Raise ZeroDivisionError.
Proof.
  unfold float_div.
  destruct (Req_dec_T 0 0) as [_ | N]; [reflexivity | now destruct N].
Qed.

Lemma float_pow_pos (x y : R) : 0 < x -> float_pow x y = Ok (Rpower x y).
Proof.
  intros Hx. unfold float_pow.
  destruct (Rlt_dec 0 x) as [_ | N]; [reflexivity | contradiction].
Qed.

Lemma float_pow_zero_pos (y : R) : 0 < y -> float_pow 0 y = Ok 0.
Proof.
  intros Hy. unfold float_pow.
  destruct (Rlt_dec 0 0) as [F | _]; [lra |].
  destruct (Req_dec_T y 0) as [E | _]; [lra |].
  destruct (Req_dec_T 0 0) as [_ | N]; [| now destruct N].
  destruct (Rlt_dec 0 y) as [_ | N]; [reflexivity | contradiction].
Qed.

Lemma float_pow_zero_neg (y : R) :
  y < 0 -> float_pow 0 y = Raise ZeroDivisionError.
Proof.
  intros Hy. unfold float_pow.
  destruct (Rlt_dec 0 0) as [F | _]; [lra |].
  destruct (Req_dec_T y 0) as [E | _]; [lra |].
  destruct (Req_dec_T 0 0) as [_ | N]; [| now destruct N].
  destruct (Rlt_dec 0 y) as [F | _]; [lra | reflexivity].
Qed.

(** A number strictly between two consecutive integers is no integer. *)
Lemma not_integer_between (y : R) (n : Z) :
  IZR n < y < IZR n + 1 -> y <> IZR (Int_part y).
Proof.
  intros [Hlo Hhi] E.
  assert (Hn : n = Int_part y) by (apply Int_part_spec; lra).
  rewrite <- Hn in E. lra.
Qed.

Lemma float_pow_neg (x y : R) (n : Z) :
  x < 0 -> IZR n < y < IZR n + 1 -> float_pow x y = Raise NotReal.
Proof.
  intros Hx Hy. unfold float_pow.
  destruct (Rlt_dec 0 x) as [F | _]; [lra |].
  destruct (Req_dec_T y 0) as [E | _].
  - exfalso. subst y. destruct Hy as [Hlo Hhi].
    apply lt_IZR in Hlo.
    assert (Hhi' : IZR 0 < IZR (n + 1)) by (rewrite plus_IZR; lra).
    apply lt_IZR in Hhi'. lia.
  - destruct (Req_dec_T x 0) as [E | _]; [lra |].
    destruct (Req_dec_T y (IZR (Int_part y))) as [E | _];
      [| reflexivity].
    exfalso. exact (not_integer_between y n Hy E).
Qed.

(** ** The kinetics function on its steps *)

Lemma gas_product_nonzero : Rgas * T <> 0.
Proof. unfold Rgas, T. lra. Qed.

Lemma cTotal_ok : float_div (IZR P) (Rgas * T) = Ok Kinetics.cTotal.
Proof. apply float_div_ok, gas_product_nonzero. Qed.

Lemma cTotal_pos : 0 < Kinetics.cTotal.
Proof.
  unfold Kinetics.cTotal, P, Rgas, T.
  apply Rdiv_lt_0_compat; lra.
Qed.

Lemma Ke_pos : 0 < Ke.
Proof. apply exp_pos. Qed.

(** Runs the next partial operation of a chain of binds, both ways. *)
Ltac run_bind :=
  match goal with
  | |- context [bind (float_div ?x ?y) _] =>
      destruct (float_div x y); cbn [bind]
  | |- context [bind (float_pow ?x ?y) _] =>
      destruct (float_pow x y); cbn [bind]
  end.

(** Once the total flow is not zero, the script's function is the six
    steps of the specification. *)
Lemma LTS_unfold (F_CO F_H2O F_CO2 F_H2 W : R) :
  F_CO + F_H2O + F_CO2 + F_H2 <> 0 ->
  LTS [F_CO; F_H2O; F_CO2; F_H2] W
  = Kinetics.derivatives F_CO F_H2O F_CO2 F_H2.
Proof.
  intros HFt. unfold LTS.
  rewrite cTotal_ok. cbn [bind].
  rewrite !(float_div_ok _ _ HFt). cbn [bind].
  unfold Kinetics.derivatives, Kinetics.net_rate, Kinetics.beta,
    Kinetics.rate, Kinetics.conc, Kinetics.Ft.
  unfold a, b, c, d.
  repeat run_bind; reflexivity.
Qed.

Lemma conc_pos (F_i Ft : R) : 0 < F_i -> 0 < Ft -> 0 < Kinetics.conc F_i Ft.
Proof.
  intros HF HFt. unfold Kinetics.conc.
  apply Rdiv_lt_0_compat; [| assumption].
  apply Rmult_lt_0_compat; [apply cTotal_pos | assumption].
Qed.

(** On positive concentrations every operation of steps 4 and 5 is in its
    domain, and the rate is the formula. *)
Lemma rate_on_positive (c_CO c_H2O c_CO2 c_H2 : R) :
  0 < c_CO -> 0 < c_H2O -> 0 < c_CO2 -> 0 < c_H2 ->
  (beta <- Kinetics.beta c_CO c_H2O c_CO2 c_H2 ;;
   Kinetics.rate c_CO c_H2O c_CO2 c_H2 beta)
  = Ok (Kinetics.rate_formula c_CO c_H2O c_CO2 c_H2).
Proof.
  intros H1 H2 H3 H4.
  assert (Hden : c_CO * c_H2O <> 0).
  { apply Rgt_not_eq, Rmult_lt_0_compat; assumption. }
  assert (HKe : Ke <> 0) by (apply Rgt_not_eq, Ke_pos).
  unfold Kinetics.beta, Kinetics.rate, Kinetics.rate_formula.
  rewrite (float_div_ok _ _ Hden). cbn [bind].
  rewrite (float_div_ok _ _ HKe). cbn [bind].
  rewrite !float_pow_pos by assumption. cbn [bind].
  reflexivity.
Qed.

Lemma net_rate_on_positive (F_CO F_H2O F_CO2 F_H2 : R) :
  0 < F_CO -> 0 < F_H2O -> 0 < F_CO2 -> 0 < F_H2 ->
  let Ft := Kinetics.Ft F_CO F_H2O F_CO2 F_H2 in
  Kinetics.net_rate F_CO F_H2O F_CO2 F_H2
  = Ok (Kinetics.rate_formula (Kinetics.conc F_CO Ft)
          (Kinetics.conc F_H2O Ft) (Kinetics.conc F_CO2 Ft)
          (Kinetics.conc F_H2 Ft)).
Proof.
  intros H1 H2 H3 H4 Ft.
  assert (HFt : 0 < Ft) by (unfold Ft, Kinetics.Ft; lra).
  unfold Kinetics.net_rate. fold Ft.
  apply rate_on_positive; apply conc_pos; assumption.
Qed.

(** The script's function on a state of positive flows. *)
Lemma LTS_on_positive (F_CO F_H2O F_CO2 F_H2 W : R) :
  0 < F_CO -> 0 < F_H2O -> 0 < F_CO2 -> 0 < F_H2 ->
  let Ft := Kinetics.Ft F_CO F_H2O F_CO2 F_H2 in
  let rate :=
    Kinetics.rate_formula (Kinetics.conc F_CO Ft) (Kinetics.conc F_H2O Ft)
      (Kinetics.conc F_CO2 Ft) (Kinetics.conc F_H2 Ft) in
  LTS [F_CO; F_H2O; F_CO2; F_H2] W = Ok (- rate, - rate, rate, rate).
Proof.
  intros H1 H2 H3 H4 Ft rate.
  rewrite LTS_unfold by lra.
  unfold Kinetics.derivatives.
  rewrite net_rate_on_positive by assumption. reflexivity.
Qed.

(** ** Claims on the kinetics function *)

(** C1.  For every state (F_CO, F_H2O, F_CO2, F_H2) of positive total
    flow, [LTS] computes its result by the steps of the specification:
    cTotal = P/(R*T); Ft the sum of the four flows; c_i = cTotal*F_i/Ft;
    beta = (c_H2*c_CO2)/(c_CO*c_H2O)/Ke; rate = k * c_CO^0.47 *
    c_H2O^0.72 * c_CO2^(-0.38) * c_H2^(-0.65) * (1 - beta), CO2 carrying
    the exponent d and H2 the exponent c; the derivatives are
    (-rate, -rate, rate, rate). *)
Theorem LTS_computes_by_steps (F_CO F_H2O F_CO2 F_H2 W : R) :
  0 < F_CO + F_H2O + F_CO2 + F_H2 ->
  let Ft := Kinetics.Ft F_CO F_H2O F_CO2 F_H2 in
  let c_CO := Kinetics.conc F_CO Ft in
  let c_H2O := Kinetics.conc F_H2O Ft in
  let c_CO2 := Kinetics.conc F_CO2 Ft in
  let c_H2 := Kinetics.conc F_H2 Ft in
  LTS [F_CO; F_H2O; F_CO2; F_H2] W
  = (beta <- Kinetics.beta c_CO c_H2O c_CO2 c_H2 ;;
     rate <- Kinetics.rate c_CO c_H2O c_CO2 c_H2 beta ;;
     Ok (- rate, - rate, rate, rate))
  /\ d = -0.38 /\ c = -0.65.
Proof.
  intros HFt Ft c_CO c_H2O c_CO2 c_H2.
  split; [| split; reflexivity].
  rewrite LTS_unfold by lra.
  unfold Kinetics.derivatives, Kinetics.net_rate.
  fold Ft. fold c_CO. fold c_H2O. fold c_CO2. fold c_H2.
  destruct (Kinetics.beta c_CO c_H2O c_CO2 c_H2); reflexivity.
Qed.

(** The steps of C1 at the inlet state, where they run to a value. *)
Lemma LTS_computes_by_steps_witness :
  0 < f0CO + f0H2O + f0CO2 + f0H2 /\
  exists rate, LTS InletFlow 0 = Ok (- rate, - rate, rate, rate).
Proof.
  assert (Hpos : 0 < f0CO + f0H2O + f0CO2 + f0H2)
    by (unfold f0CO, f0H2O, f0CO2, f0H2; lra).
  split; [exact Hpos |].
  destruct (LTS_computes_by_steps f0CO f0H2O f0CO2 f0H2 0 Hpos)
    as [Hsteps _].
  unfold InletFlow. rewrite Hsteps, <- bind_assoc.
  rewrite rate_on_positive
    by (apply conc_pos; unfold Kinetics.Ft, f0CO, f0H2O, f0CO2, f0H2; lra).
  cbn [bind]. eexists. reflexivity.
Defined.

(** C2.  For every state of positive total flow, the four derivatives
    [LTS] returns are -rate, -rate, +rate, +rate for the rate of steps 1
    to 5: d(CO)/dW = d(H2O)/dW, d(CO2)/dW = d(H2)/dW = -d(CO)/dW, and the
    four sum to zero. *)
Theorem LTS_stoichiometry
    (F_CO F_H2O F_CO2 F_H2 W dCOdW dH2OdW dCO2dW dH2dW : R) :
  0 < F_CO + F_H2O + F_CO2 + F_H2 ->
  LTS [F_CO; F_H2O; F_CO2; F_H2] W = Ok (dCOdW, dH2OdW, dCO2dW, dH2dW) ->
  (exists rate,
      Kinetics.net_rate F_CO F_H2O F_CO2 F_H2 = Ok rate /\
      dCOdW = - rate /\ dH2OdW = - rate /\
      dCO2dW = rate /\ dH2dW = rate) /\
  dCOdW = dH2OdW /\
  dCO2dW = dH2dW /\
  dCO2dW = - dCOdW /\
  dCOdW + dH2OdW + dCO2dW + dH2dW = 0.
Proof.
  intros HFt HLTS.
  rewrite LTS_unfold in HLTS by lra.
  unfold Kinetics.derivatives in HLTS.
  destruct (Kinetics.net_rate F_CO F_H2O F_CO2 F_H2) as [rate | e];
    cbn [bind] in HLTS; [| discriminate].
  injection HLTS as <- <- <- <-.
  split.
  - exists rate. repeat split.
  - repeat split; lra.
Qed.

(** C2 at the inlet state, where [LTS] returns. *)
Lemma LTS_stoichiometry_witness :
  exists dCOdW dH2OdW dCO2dW dH2dW,
    LTS InletFlow 0 = Ok (dCOdW, dH2OdW, dCO2dW, dH2dW) /\
    dCOdW = dH2OdW /\ dCO2dW = dH2dW /\ dCO2dW = - dCOdW /\
    dCOdW + dH2OdW + dCO2dW + dH2dW = 0.
Proof.
  assert (H1 : 0 < f0CO) by (unfold f0CO; lra).
  assert (H2 : 0 < f0H2O) by (unfold f0H2O; lra).
  assert (H3 : 0 < f0CO2) by (unfold f0CO2; lra).
  assert (H4 : 0 < f0H2) by (unfold f0H2; lra).
  pose proof (LTS_on_positive f0CO f0H2O f0CO2 f0H2 0 H1 H2 H3 H4) as HLTS.
  cbv zeta in HLTS.
  eexists _, _, _, _. split; [exact HLTS |].
  apply (LTS_stoichiometry f0CO f0H2O f0CO2 f0H2 0 _ _ _ _);
    [lra | exact HLTS].
Defined.




(** The state of that witness on binary64 numbers, with the script's Ke:
    beta is 1 there too. *)
Lemma beta_is_one_on_binary64 :
  let Ke := LTS64.Ke_value in
  let Ft := (2 + 1 + Ke + 2)%float in
  (LTS64.beta Ke (LTS64.conc 2 Ft) (LTS64.conc 1 Ft) (LTS64.conc Ke Ft)
     (LTS64.conc 2 Ft) =? 1)%float = true.
Proof.
  vm_compute. reflexivity.
Qed.

(** ** Scaling the state, in exact arithmetic *)

Lemma LTS_zero_flow (F_CO F_H2O F_CO2 F_H2 W : R) :
  F_CO + F_H2O + F_CO2 + F_H2 = 0 ->
  LTS [F_CO; F_H2O; F_CO2; F_H2] W = Raise ZeroDivisionError.
Proof.
  intros HFt. unfold LTS.
  rewrite cTotal_ok. cbn [bind].
  rewrite HFt, float_div_zero. reflexivity.
Qed.

(** In exact arithmetic the concentrations see the mole fractions only;
    on binary64 numbers the scaling must be exact for that. *)
Lemma conc_scale (lam F_i Ft : R) :
  lam <> 0 -> Ft <> 0 ->
  Kinetics.conc (lam * F_i) (lam * Ft) = Kinetics.conc F_i Ft.
Proof.
  intros Hl HFt. unfold Kinetics.conc. field. split; assumption.
Qed.

Lemma LTS_scale (lam F_CO F_H2O F_CO2 F_H2 W : R) :
  lam <> 0 ->
  LTS [lam * F_CO; lam * F_H2O; lam * F_CO2; lam * F_H2] W
  = LTS [F_CO; F_H2O; F_CO2; F_H2] W.
Proof.
  intros Hl.
  destruct (Req_dec_T (F_CO + F_H2O + F_CO2 + F_H2) 0) as [HFt | HFt].
  - rewrite !LTS_zero_flow; [reflexivity | exact HFt |].
    rewrite <- !Rmult_plus_distr_l, HFt. ring.
  - assert (HFt' : lam * F_CO + lam * F_H2O + lam * F_CO2 + lam * F_H2
                   = lam * (F_CO + F_H2O + F_CO2 + F_H2)) by ring.
    rewrite !LTS_unfold;
      [| exact HFt | rewrite HFt'; apply Rmult_integral_contrapositive_currified;
                     assumption].
    unfold Kinetics.derivatives, Kinetics.net_rate, Kinetics.Ft.
    rewrite HFt'. rewrite !conc_scale by assumption. reflexivity.
Qed.

(** ** Scaling the state, on binary64 numbers *)








(** That witness on binary64 numbers: the doubled inlet state has the
    concentrations of the inlet state bit for bit, and so the same result
    whatever the powers, k and Ke are. *)
Lemma doubled_inlet_on_binary64
    (pow : float -> float -> float) (k Ke : float) :
  LTS64.LTS pow k Ke (LTS64.scale 2 Binary64.InletFlow)
  = LTS64.LTS pow k Ke Binary64.InletFlow.
Proof.
  unfold Binary64.InletFlow. cbn [LTS64.scale map LTS64.LTS].
  set (Ft2 := (2 * 291.4 + 2 * 5441.7 + 2 * 1604.2 + 2 * 5015.6)%float).
  set (Ft := (291.4 + 5441.7 + 1604.2 + 5015.6)%float).
  replace (LTS64.conc (2 * 291.4) Ft2) with (LTS64.conc 291.4 Ft)
    by (vm_compute; reflexivity).
  replace (LTS64.conc (2 * 5441.7) Ft2) with (LTS64.conc 5441.7 Ft)
    by (vm_compute; reflexivity).
  replace (LTS64.conc (2 * 1604.2) Ft2) with (LTS64.conc 1604.2 Ft)
    by (vm_compute; reflexivity).
  replace (LTS64.conc (2 * 5015.6) Ft2) with (LTS64.conc 5015.6 Ft)
    by (vm_compute; reflexivity).
  reflexivity.
Qed.

(** ** Where the kinetics function has no value *)

(** An operand that is not zero has its fractional power when it is
    positive, and a power that is no real number when it is negative. *)
Lemma float_pow_nonzero (x y : R) (n : Z) :
  x <> 0 -> IZR n < y < IZR n + 1 ->
  (0 < x /\ float_pow x y = Ok (Rpower x y)) \/
  (x < 0 /\ float_pow x y = Raise NotReal).
Proof.
  intros Hx Hy. destruct (Rlt_dec 0 x) as [Hp | Hn].
  - left. split; [exact Hp | apply float_pow_pos, Hp].
  - right. assert (Hneg : x < 0) by lra.
    split; [exact Hneg | apply (float_pow_neg x y n); assumption].
Qed.

Lemma a_fractional : IZR 0 < 0.47 < IZR 0 + 1.
Proof. lra. Qed.

Lemma b_fractional : IZR 0 < 0.72 < IZR 0 + 1.
Proof. lra. Qed.

Lemma c_fractional : IZR (-1) < -0.65 < IZR (-1) + 1.
Proof. lra. Qed.

Lemma d_fractional : IZR (-1) < -0.38 < IZR (-1) + 1.
Proof. lra. Qed.

(** At the state (0, 1, 1, 1) the concentration of CO is zero and yet
    each of the four powers has a value: it is not so that a zero
    concentration makes the powers undefined. *)
Lemma zero_concentration_powers_defined :
  let Ft := Kinetics.Ft 0 1 1 1 in
  let c_CO := Kinetics.conc 0 Ft in
  let c_H2O := Kinetics.conc 1 Ft in
  let c_CO2 := Kinetics.conc 1 Ft in
  let c_H2 := Kinetics.conc 1 Ft in
  ~ ((c_CO <= 0 \/ c_H2O <= 0 \/ c_CO2 <= 0 \/ c_H2 <= 0) ->
     Kinetics.some_power_undefined c_CO c_H2O c_CO2 c_H2).
Proof.
  intros Ft c_CO c_H2O c_CO2 c_H2 Himp.
  assert (HFt : 0 < Ft) by (unfold Ft, Kinetics.Ft; lra).
  assert (H0 : c_CO = 0).
  { unfold c_CO, Kinetics.conc. rewrite Rmult_0_r. unfold Rdiv. ring. }
  assert (H1 : 0 < Kinetics.conc 1 Ft) by (apply conc_pos; lra).
  assert (Hpow : forall y, defined (float_pow (Kinetics.conc 1 Ft) y)).
  { intros y. eexists. apply float_pow_pos, H1. }
  destruct Himp as [H | [H | [H | H]]].
  - left. lra.
  - apply H. rewrite H0. exists 0.
    apply float_pow_zero_pos. unfold a. lra.
  - apply H, Hpow.
  - apply H, Hpow.
  - apply H, Hpow.
Qed.

(** Steps 4 to 6 once the concentrations are there. *)
Lemma LTS_from_concentrations (F_CO F_H2O F_CO2 F_H2 W : R) :
  let Ft := Kinetics.Ft F_CO F_H2O F_CO2 F_H2 in
  let c_CO := Kinetics.conc F_CO Ft in
  let c_H2O := Kinetics.conc F_H2O Ft in
  let c_CO2 := Kinetics.conc F_CO2 Ft in
  let c_H2 := Kinetics.conc F_H2 Ft in
  Ft <> 0 ->
  LTS [F_CO; F_H2O; F_CO2; F_H2] W
  = (rate <- (beta <- Kinetics.beta c_CO c_H2O c_CO2 c_H2 ;;
              Kinetics.rate c_CO c_H2O c_CO2 c_H2 beta) ;;
     Ok (- rate, - rate, rate, rate)).
Proof.
  intros Ft c_CO c_H2O c_CO2 c_H2 HFt.
  rewrite LTS_unfold by exact HFt. reflexivity.
Qed.

(** C8, amended.  [LTS] is not well-defined on every state, and has no
    branch that checks for or handles a zero or a negative concentration.
    When the total flow is zero the concentrations divide by zero.  A
    negative concentration has none of the four powers as a real number
    (they are complex, or nan).  A zero concentration has its powers 0.47
    and 0.72, which are 0, and not its powers -0.38 and -0.65, which divide
    by zero; when it is that of CO or of H2O, [LTS] fails in beta's division
    by c_CO * c_H2O = 0.  At the inlet state [LTS] does return. *)
Theorem LTS_has_no_guard :
  defined (LTS InletFlow 0) /\
  (forall F_CO F_H2O F_CO2 F_H2 W : R,
      F_CO + F_H2O + F_CO2 + F_H2 = 0 ->
      LTS [F_CO; F_H2O; F_CO2; F_H2] W = Raise ZeroDivisionError) /\
  (forall x : R, x < 0 ->
      not_real (float_pow x a) /\ not_real (float_pow x b) /\
      not_real (float_pow x d) /\ not_real (float_pow x c)) /\
  (float_pow 0 a = Ok 0 /\ float_pow 0 b = Ok 0 /\
   float_pow 0 d = Raise ZeroDivisionError /\
   float_pow 0 c = Raise ZeroDivisionError) /\
  (forall F_CO F_H2O F_CO2 F_H2 W : R,
      let Ft := Kinetics.Ft F_CO F_H2O F_CO2 F_H2 in
      let c_CO := Kinetics.conc F_CO Ft in
      let c_H2O := Kinetics.conc F_H2O Ft in
      let c_CO2 := Kinetics.conc F_CO2 Ft in
      let c_H2 := Kinetics.conc F_H2 Ft in
      Ft <> 0 ->
      (c_CO * c_H2O = 0 ->
       LTS [F_CO; F_H2O; F_CO2; F_H2] W = Raise ZeroDivisionError) /\
      (0 < c_CO -> 0 < c_H2O -> c_CO2 = 0 \/ (0 < c_CO2 /\ c_H2 = 0) ->
       LTS [F_CO; F_H2O; F_CO2; F_H2] W = Raise ZeroDivisionError) /\
      (c_CO * c_H2O <> 0 -> c_CO2 <> 0 -> c_H2 <> 0 ->
       c_CO < 0 \/ c_H2O < 0 \/ c_CO2 < 0 \/ c_H2 < 0 ->
       not_real (LTS [F_CO; F_H2O; F_CO2; F_H2] W))).
Proof.
  assert (HKe : Ke <> 0) by (apply Rgt_not_eq, Ke_pos).
  split; [| split; [| split; [| split]]].
  - eexists. unfold InletFlow.
    apply LTS_on_positive; unfold f0CO, f0H2O, f0CO2, f0H2; lra.
  - apply LTS_zero_flow.
  - intros x Hx. unfold not_real, a, b, c, d. repeat split.
    + apply (float_pow_neg x _ 0 Hx a_fractional).
    + apply (float_pow_neg x _ 0 Hx b_fractional).
    + apply (float_pow_neg x _ (-1) Hx d_fractional).
    + apply (float_pow_neg x _ (-1) Hx c_fractional).
  - repeat split.
    + apply float_pow_zero_pos. unfold a. lra.
    + apply float_pow_zero_pos. unfold b. lra.
    + apply float_pow_zero_neg. unfold d. lra.
    + apply float_pow_zero_neg. unfold c. lra.
  - intros F_CO F_H2O F_CO2 F_H2 W Ft c_CO c_H2O c_CO2 c_H2 HFt.
    rewrite (LTS_from_concentrations F_CO F_H2O F_CO2 F_H2 W HFt).
    fold Ft. fold c_CO. fold c_H2O. fold c_CO2. fold c_H2.
    unfold Kinetics.beta, Kinetics.rate, not_real.
    split; [| split].
    + intros Hzero. rewrite Hzero, float_div_zero. reflexivity.
    + intros P1 P2 Hz.
      assert (Hden : c_CO * c_H2O <> 0)
        by (apply Rgt_not_eq, Rmult_lt_0_compat; assumption).
      rewrite (float_div_ok _ _ Hden). cbn [bind].
      rewrite (float_div_ok _ _ HKe). cbn [bind].
      rewrite (float_pow_pos c_CO) by exact P1. cbn [bind].
      rewrite (float_pow_pos c_H2O) by exact P2. cbn [bind].
      destruct Hz as [-> | [P3 ->]].
      * rewrite float_pow_zero_neg by lra. reflexivity.
      * rewrite (float_pow_pos c_CO2) by exact P3. cbn [bind].
        rewrite float_pow_zero_neg by lra. reflexivity.
    + intros Hden N3 N4 Hneg.
      assert (N1 : c_CO <> 0) by (intros E; apply Hden; rewrite E; ring).
      assert (N2 : c_H2O <> 0) by (intros E; apply Hden; rewrite E; ring).
      rewrite (float_div_ok _ _ Hden). cbn [bind].
      rewrite (float_div_ok _ _ HKe). cbn [bind].
      destruct (float_pow_nonzero c_CO _ 0 N1 a_fractional)
        as [[Q1 ->] | [_ ->]]; cbn [bind]; [| reflexivity].
      destruct (float_pow_nonzero c_H2O _ 0 N2 b_fractional)
        as [[Q2 ->] | [_ ->]]; cbn [bind]; [| reflexivity].
      destruct (float_pow_nonzero c_CO2 _ (-1) N3 d_fractional)
        as [[Q3 ->] | [_ ->]]; cbn [bind]; [| reflexivity].
      destruct (float_pow_nonzero c_H2 _ (-1) N4 c_fractional)
        as [[Q4 ->] | [_ ->]]; cbn [bind]; [| reflexivity].
      exfalso. lra.
Qed.

(** C8 at the state (0, 0, 0, 0), whose total flow is zero; at the state
    (0, 1, 1, 1), whose concentration of CO is zero; and at the state
    (-1, 2, 1, 1), whose concentration of CO is negative. *)
Lemma LTS_has_no_guard_witness :
  LTS [0; 0; 0; 0] 0 = Raise ZeroDivisionError /\
  LTS [0; 1; 1; 1] 0 = Raise ZeroDivisionError /\
  not_real (LTS [-1; 2; 1; 1] 0).
Proof.
  destruct LTS_has_no_guard as (_ & Hzero & _ & _ & Hstate).
  pose proof cTotal_pos as HcT.
  split; [| split].
  - apply Hzero. lra.
  - assert (HFt : Kinetics.Ft 0 1 1 1 <> 0) by (unfold Kinetics.Ft; lra).
    destruct (Hstate 0 1 1 1 0 HFt) as (Hproduct & _ & _).
    apply Hproduct. unfold Kinetics.conc, Kinetics.Ft. field.
  - assert (HFt : Kinetics.Ft (-1) 2 1 1 <> 0)
      by (unfold Kinetics.Ft; lra).
    destruct (Hstate (-1) 2 1 1 0 HFt) as (_ & _ & Hnegative).
    assert (E1 : Kinetics.conc (-1) (Kinetics.Ft (-1) 2 1 1)
                 = - Kinetics.cTotal / 3)
      by (unfold Kinetics.conc, Kinetics.Ft; field).
    assert (E2 : Kinetics.conc 2 (Kinetics.Ft (-1) 2 1 1)
                 = 2 * Kinetics.cTotal / 3)
      by (unfold Kinetics.conc, Kinetics.Ft; field).
    assert (E3 : Kinetics.conc 1 (Kinetics.Ft (-1) 2 1 1)
                 = Kinetics.cTotal / 3)
      by (unfold Kinetics.conc, Kinetics.Ft; field).
    apply Hnegative; rewrite ?E1, ?E2, ?E3.
    + nra.
    + lra.
    + lra.
    + left. lra.
Defined.

(** ** The derived constants *)

(** C4.  The derived constants are the specification's, on its literal
    inputs: A = exp(19.25); newA = A * 1000/3600 * 101325^(-0.16) *
    P^0.16; k = newA * exp(-Ea/(R*T)) with Ea = 79.2e3, R = 8.314 and
    T = 497.15; Ke = exp(4577.8/T - 4.33).  Their evaluation meets no
    error, and every call of [LTS], at whatever state and catalyst mass,
    reads the same k and Ke. *)
Theorem derived_constants_as_specified :
  A = ParameterDerivation.A /\
  newA = ParameterDerivation.newA /\
  k = ParameterDerivation.k /\
  Ke = ParameterDerivation.Ke /\
  derived_constants = Ok (A, newA, k, Ke) /\
  (forall F_CO F_H2O F_CO2 F_H2 W : R,
      0 < F_CO -> 0 < F_H2O -> 0 < F_CO2 -> 0 < F_H2 ->
      let Ft := F_CO + F_H2O + F_CO2 + F_H2 in
      let c_CO := Kinetics.conc F_CO Ft in
      let c_H2O := Kinetics.conc F_H2O Ft in
      let c_CO2 := Kinetics.conc F_CO2 Ft in
      let c_H2 := Kinetics.conc F_H2 Ft in
      let rate :=
        ParameterDerivation.k * Rpower c_CO 0.47 * Rpower c_H2O 0.72
        * Rpower c_CO2 (-0.38) * Rpower c_H2 (-0.65)
        * (1 - c_H2 * c_CO2 / (c_CO * c_H2O) / ParameterDerivation.Ke) in
      LTS [F_CO; F_H2O; F_CO2; F_H2] W = Ok (- rate, - rate, rate, rate)).
Proof.
  assert (Hk : k = ParameterDerivation.k).
  { unfold k, ParameterDerivation.k, np.exp, Ea, Rgas, T.
    f_equal. f_equal. lra. }
  split; [reflexivity |].
  split; [reflexivity |].
  split; [exact Hk |].
  split; [reflexivity |].
  split.
  - unfold derived_constants.
    rewrite (float_div_ok _ 3600) by lra. cbn [bind].
    rewrite (float_pow_pos 101325) by lra. cbn [bind].
    rewrite (float_pow_pos (IZR P)) by (unfold P; lra). cbn [bind].
    rewrite (float_div_ok _ _ gas_product_nonzero). cbn [bind].
    rewrite (float_div_ok _ T) by (unfold T; lra). cbn [bind].
    reflexivity.
  - intros F_CO F_H2O F_CO2 F_H2 W H1 H2 H3 H4.
    cbv zeta. rewrite <- Hk.
    exact (LTS_on_positive F_CO F_H2O F_CO2 F_H2 W H1 H2 H3 H4).
Qed.

(** C4 at the inlet state and at the two ends of the mass range: the two
    calls read the same constants. *)
Lemma derived_constants_as_specified_witness :
  k = ParameterDerivation.k /\ Ke = ParameterDerivation.Ke /\
  LTS InletFlow (IZR wMin) = LTS InletFlow (IZR wMax).
Proof.
  destruct derived_constants_as_specified as (_ & _ & Hk & HKe & _ & Hcall).
  split; [exact Hk |]. split; [exact HKe |].
  unfold InletFlow.
  rewrite (Hcall f0CO f0H2O f0CO2 f0H2 (IZR wMin))
    by (unfold f0CO, f0H2O, f0CO2, f0H2; lra).
  rewrite (Hcall f0CO f0H2O f0CO2 f0H2 (IZR wMax))
    by (unfold f0CO, f0H2O, f0CO2, f0H2; lra).
  reflexivity.
Defined.

(** ** The inlet total *)

(** The inlet total is not the 12353.9 mol/s that is stated for it,
    neither in exact arithmetic nor on binary64 numbers. *)
Lemma fTotal_is_not_12353_9 :
  fTotal <> 12353.9 /\
  PrimFloat.eqb Binary64.fTotal Binary64.stated_total = false.
Proof.
  split.
  - unfold fTotal, sum, InletFlow, f0CO, f0H2O, f0CO2, f0H2.
    cbn [fold_left]. lra.
  - vm_compute. reflexivity.
Qed.

(** C5, amended.  The total inlet molar flow, the sum of the four inlet
    literals 291.4 + 5441.7 + 1604.2 + 5015.6 bound to [fTotal], is
    12352.9 mol/s; on binary64 numbers the sum is the float nearest to
    12352.9. *)
Theorem fTotal_is_12352_9 :
  fTotal = f0CO + f0H2O + f0CO2 + f0H2 /\
  fTotal = 12352.9 /\
  PrimFloat.eqb Binary64.fTotal Binary64.exact_total = true.
Proof.
  split; [| split].
  - unfold fTotal, sum, InletFlow. cbn [fold_left]. ring.
  - unfold fTotal, sum, InletFlow, f0CO, f0H2O, f0CO2, f0H2.
    cbn [fold_left]. lra.
  - vm_compute. reflexivity.
Qed.

(** ** The sample grid *)

Lemma linspace_shape (start stop : R) (m : nat) :
  (1 <= m)%nat ->
  np.linspace start stop (S m)
  = map (fun i => INR i * ((stop - start) / INR m) + start) (seq 0 m)
    ++ [stop].
Proof.
  intros Hm. unfold np.linspace. cbv zeta.
  replace (S m - 1)%nat with m by lia.
  destruct (Nat.ltb_spec 1 (S m)) as [_ | Hle]; [| lia].
  rewrite seq_S, map_app. cbn [map].
  rewrite removelast_last. reflexivity.
Qed.

Lemma linspace_length (start stop : R) (m : nat) :
  (1 <= m)%nat -> List.length (np.linspace start stop (S m)) = S m.
Proof.
  intros Hm. rewrite linspace_shape by exact Hm.
  rewrite length_app, length_map, length_seq. cbn [List.length]. lia.
Qed.

(** Every sample, the last included, is on the line from [start] to
    [stop]. *)
Lemma linspace_nth (start stop : R) (m i : nat) :
  (1 <= m)%nat -> (i <= m)%nat ->
  nth i (np.linspace start stop (S m)) 0
  = start + INR i * ((stop - start) / INR m).
Proof.
  intros Hm Hi. rewrite linspace_shape by exact Hm.
  set (f := fun i : nat => INR i * ((stop - start) / INR m) + start).
  destruct (Nat.eq_dec i m) as [-> | Hne].
  - rewrite app_nth2 by (rewrite length_map, length_seq; lia).
    rewrite length_map, length_seq, Nat.sub_diag. cbn [nth].
    field. apply not_0_INR. lia.
  - assert (Hlt : (i < m)%nat) by lia.
    rewrite app_nth1 by (rewrite length_map, length_seq; exact Hlt).
    rewrite (nth_indep _ 0 (f 0%nat))
      by (rewrite length_map, length_seq; exact Hlt).
    rewrite map_nth, seq_nth by exact Hlt.
    unfold f. cbn [Nat.add]. ring.
Qed.

Lemma wSpan_nth (i : nat) :
  (i < 3000)%nat -> nth i wSpan 0 = INR i * (3000 / 2999).
Proof.
  intros Hi. unfold wSpan, wMin, wMax.
  change (Z.to_nat 3000) with (S 2999).
  rewrite linspace_nth by lia.
  rewrite (INR_IZR_INZ 2999).
  change (Z.of_nat 2999) with 2999%Z. lra.
Qed.

(** C6.  The sample grid [wSpan] has exactly wMax = 3000 points, from
    wMin = 0 to wMax = 3000 with both ends included, evenly spaced, and
    strictly increasing. *)
Theorem wSpan_is_even_grid :
  List.length wSpan = Z.to_nat wMax /\
  List.length wSpan = 3000%nat /\
  nth 0 wSpan 0 = IZR wMin /\
  nth (List.length wSpan - 1) wSpan 0 = IZR wMax /\
  (forall i : nat,
      (S i < List.length wSpan)%nat ->
      nth (S i) wSpan 0 - nth i wSpan 0
      = (IZR wMax - IZR wMin) / (IZR wMax - 1)) /\
  (forall i j : nat,
      (i < j)%nat -> (j < List.length wSpan)%nat ->
      nth i wSpan 0 < nth j wSpan 0).
Proof.
  assert (Hlen : List.length wSpan = 3000%nat).
  { unfold wSpan, wMax. change (Z.to_nat 3000) with (S 2999).
    apply linspace_length. lia. }
  rewrite Hlen. unfold wMin, wMax.
  split; [reflexivity |].
  split; [reflexivity |].
  split; [rewrite wSpan_nth by lia; cbn [INR]; lra |].
  split.
  { change (3000 - 1)%nat with 2999%nat.
    rewrite wSpan_nth by lia.
    rewrite (INR_IZR_INZ 2999). change (Z.of_nat 2999) with 2999%Z. lra. }
  split.
  - intros i Hi. rewrite !wSpan_nth by lia. rewrite S_INR. lra.
  - intros i j Hij Hj. rewrite !wSpan_nth by lia.
    apply Rmult_lt_compat_r; [lra | apply lt_INR, Hij].
Qed.

(** C6 on the first two and the last two points of the grid. *)
Lemma wSpan_is_even_grid_witness :
  nth 1 wSpan 0 - nth 0 wSpan 0 = 3000 / 2999 /\
  nth 2998 wSpan 0 < nth 2999 wSpan 0.
Proof.
  destruct wSpan_is_even_grid as (_ & Hlen & _ & _ & Hstep & Hincr).
  split.
  - rewrite (Hstep 0%nat) by (rewrite Hlen; lia).
    unfold wMax, wMin. lra.
  - apply Hincr; rewrite ?Hlen; lia.
Defined.

(** ** The solver's output *)

Section Driver.

Variable lsoda :
  (list R -> R -> result (R * R * R * R)) -> list R -> R -> R -> list R.

Lemma advance_length (func : list R -> R -> result (R * R * R * R))
    (ts : list R) (y : list R) (t0 : R) :
  List.length (scipy_integrate.advance lsoda func y t0 ts) = List.length ts.
Proof.
  revert y t0. induction ts as [| t1 ts IH]; intros y t0; cbn.
  - reflexivity.
  - now rewrite IH.
Qed.

Lemma odeint_length (func : list R -> R -> result (R * R * R * R))
    (y0 : list R) (t : list R) :
  List.length (scipy_integrate.odeint lsoda func y0 t) = List.length t.
Proof.
  destruct t as [| t0 ts]; cbn; [reflexivity |].
  now rewrite advance_length.
Qed.

Lemma odeint_first_row (func : list R -> R -> result (R * R * R * R))
    (y0 : list R) (t : list R) :
  t <> [] -> nth 0 (scipy_integrate.odeint lsoda func y0 t) [] = y0.
Proof.
  destruct t as [| t0 ts]; [intros H; now destruct H | reflexivity].
Qed.

Lemma wSpan_nonempty : wSpan <> [].
Proof.
  intros E. apply (f_equal (@List.length R)) in E.
  unfold wSpan, wMax in E. change (Z.to_nat 3000) with (S 2999) in E.
  rewrite linspace_length in E by lia. discriminate.
Qed.

(** C7.  The first row of the solver's output, the state at the first
    sample point W = wMin = 0, is the inlet flow vector
    (291.4, 5441.7, 1604.2, 5015.6), whatever the integrator does between
    the sample points; the output has one row for each sample point. *)
Theorem solver_first_row_is_inlet :
  nth 0 (solver lsoda) [] = [291.4; 5441.7; 1604.2; 5015.6] /\
  nth 0 wSpan 0 = IZR wMin /\
  List.length (solver lsoda) = List.length wSpan.
Proof.
  split; [| split].
  - unfold solver. rewrite odeint_first_row by exact wSpan_nonempty.
    reflexivity.
  - rewrite wSpan_nth by lia. unfold wMin. cbn [INR]. lra.
  - apply odeint_length.
Qed.

(** ** The chart *)

Lemma main_state (interactive_mode : bool) :
  let fig :=
    plt.mkFigure
      [plt.mkLine wSpan (column 0 (solver lsoda)) "F_CO";
       plt.mkLine wSpan (column 1 (solver lsoda)) "F_H2O";
       plt.mkLine wSpan (column 2 (solver lsoda)) "F_CO2";
       plt.mkLine wSpan (column 3 (solver lsoda)) "F_H2"]
      "Catalyst mass, kg"
      "Molar Flowrates (mol/s)"
      "LTS Molar Flow as Function of Cat. Mass"
      (Some (plt.mkLegend "best" ["F_CO"; "F_H2O"; "F_CO2"; "F_H2"]%string)) in
  main lsoda interactive_mode
  = plt.mkState interactive_mode [fig]
      (if interactive_mode then [fig] else []) [].
Proof.
  destruct interactive_mode; reflexivity.
Qed.

(** C9, amended.  On a successful run the script builds a single chart,
    pyplot's current figure, with four line series labelled F_CO, F_H2O,
    F_CO2, F_H2 over the sample grid, the x-axis label, the y-axis label
    and the title of the specification, and a legend placed at 'best'.
    The script calls neither [show] nor [savefig]: no file is written,
    and the chart is on the screen in pyplot's interactive mode only. *)
Theorem chart_is_built (interactive_mode : bool) :
  let st := main lsoda interactive_mode in
  (exists fig,
      plt.figures st = [fig] /\
      map plt.label (plt.lines fig) = ["F_CO"; "F_H2O"; "F_CO2"; "F_H2"]%string /\
      map plt.xdata (plt.lines fig) = [wSpan; wSpan; wSpan; wSpan] /\
      map plt.ydata (plt.lines fig)
      = [column 0 (solver lsoda); column 1 (solver lsoda);
         column 2 (solver lsoda); column 3 (solver lsoda)] /\
      plt.xlabel_text fig = "Catalyst mass, kg"%string /\
      plt.ylabel_text fig = "Molar Flowrates (mol/s)"%string /\
      plt.title_text fig = "LTS Molar Flow as Function of Cat. Mass"%string /\
      plt.legend_box fig
      = Some (plt.mkLegend "best" ["F_CO"; "F_H2O"; "F_CO2"; "F_H2"]%string)) /\
  plt.files st = [] /\
  plt.on_screen st = (if interactive_mode then plt.figures st else []) /\
  (plt.displayed_or_saved st <-> interactive_mode = true).
Proof.
  intros st. unfold st. rewrite main_state. cbv zeta. cbn.
  split; [| split; [| split]].
  - eexists. split; [reflexivity |]. cbn. repeat split.
  - reflexivity.
  - reflexivity.
  - unfold plt.displayed_or_saved. cbn.
    destruct interactive_mode; split.
    + reflexivity.
    + intros _. left. discriminate.
    + intros [H | H]; now destruct H.
    + discriminate.
Qed.

End Driver.

(** Run as a script, pyplot not being in interactive mode, the chart is
    neither displayed nor saved; here with an integrator that does not
    move the state. *)
Lemma chart_is_not_displayed_or_saved :
  ~ plt.displayed_or_saved (main (fun _ y _ _ => y) false).
Proof.
  rewrite main_state. unfold plt.displayed_or_saved. cbn.
  intros [H | H]; now destruct H.
Qed.

(** * Further properties of the kinetics function *)

(** X1.  A state that is not of exactly four flows cannot be unpacked:
    [LTS] raises [ValueError], whatever the flows. *)
Theorem LTS_wrong_length (z : list R) (W : R) :
  List.length z <> 4%nat -> LTS z W = Raise ValueError.
Proof.
  intros Hlen. unfold LTS. rewrite cTotal_ok. cbn [bind].
  destruct z as [| F1 [| F2 [| F3 [| F4 [| F5 z']]]]]; try reflexivity.
  now destruct Hlen.
Qed.

(** X1 on a state of three flows and on one of five. *)
Lemma LTS_wrong_length_witness :
  LTS [1; 1; 1] 0 = Raise ValueError /\
  LTS [1; 1; 1; 1; 1] 0 = Raise ValueError.
Proof.
  split; apply LTS_wrong_length; cbn [List.length]; lia.
Defined.

(** X4.  [LTS] cannot tell a state from its mirror image: for every
    state z and all catalyst masses W and W', LTS(-z, W') = LTS(z, W),
    a raised error included.  A state of negative flows gets the
    derivatives of the positive state it mirrors. *)
Theorem LTS_mirror (z : list R) (W W' : R) :
  LTS (map Ropp z) W' = LTS z W.
Proof.
  destruct z as [| F_CO [| F_H2O [| F_CO2 [| F_H2 [| F_5 z']]]]];
    try reflexivity.
  cbn [map].
  replace (- F_CO) with (-1 * F_CO) by ring.
  replace (- F_H2O) with (-1 * F_H2O) by ring.
  replace (- F_CO2) with (-1 * F_CO2) by ring.
  replace (- F_H2) with (-1 * F_H2) by ring.
  rewrite (LTS_scale (-1) F_CO F_H2O F_CO2 F_H2 W') by lra.
  reflexivity.
Qed.

(** * Further properties of the driver *)

Section Series.

Variable lsoda :
  (list R -> R -> result (R * R * R * R)) -> list R -> R -> R -> list R.

(** X7.  Every series of the chart has 3000 x-values and 3000 y-values,
    one for each sample point, whatever the integrator returns between
    the sample points: no series is plotted with data of two lengths. *)
Theorem plotted_series_lengths (interactive_mode : bool) :
  forall fig line,
    In fig (plt.figures (main lsoda interactive_mode)) ->
    In line (plt.lines fig) ->
    List.length (plt.xdata line) = 3000%nat /\
    List.length (plt.ydata line) = List.length (plt.xdata line).
Proof.
  assert (Hlen : List.length wSpan = 3000%nat).
  { unfold wSpan, wMax. change (Z.to_nat 3000) with (S 2999).
    apply linspace_length. lia. }
  assert (Hcol : forall i, List.length (column i (solver lsoda)) = 3000%nat).
  { intros i. unfold column, solver.
    rewrite length_map, odeint_length. exact Hlen. }
  intros fig line Hfig Hline. rewrite main_state in Hfig.
  cbv zeta in Hfig. cbn [plt.figures In] in Hfig.
  destruct Hfig as [<- | []].
  cbn [plt.lines In] in Hline.
  destruct Hline as [<- | [<- | [<- | [<- | []]]]];
    cbn [plt.xdata plt.ydata]; rewrite Hcol, Hlen; split; reflexivity.
Qed.

End Series.

(** X7 on the first series, with an integrator that does not move the
    state. *)
Lemma plotted_series_lengths_witness :
  List.length (column 0 (solver (fun _ y _ _ => y))) = List.length wSpan.
Proof.
  set (lsoda := fun (_ : list R -> R -> result (R * R * R * R))
                    (y : list R) (_ _ : R) => y).
  destruct (plotted_series_lengths lsoda false
              (plt.mkFigure
                 [plt.mkLine wSpan (column 0 (solver lsoda)) "F_CO";
                  plt.mkLine wSpan (column 1 (solver lsoda)) "F_H2O";
                  plt.mkLine wSpan (column 2 (solver lsoda)) "F_CO2";
                  plt.mkLine wSpan (column 3 (solver lsoda)) "F_H2"]
                 "Catalyst mass, kg" "Molar Flowrates (mol/s)"
                 "LTS Molar Flow as Function of Cat. Mass"
                 (Some (plt.mkLegend "best"
                          ["F_CO"; "F_H2O"; "F_CO2"; "F_H2"]%string)))
              (plt.mkLine wSpan (column 0 (solver lsoda)) "F_CO"))
    as [_ H].
  - rewrite main_state. cbn. left. reflexivity.
  - cbn. left. reflexivity.
  - exact H.
Defined.
